(** * pendulum.parser: conversion of generic parse results into typed values

    A shallow embedding of [src/pendulum/parser.py] (functions [parse] and
    [_parse]) together with the properties of its dispatch on the kind of
    the parsed object, its timezone defaulting and its reconstruction of
    intervals given by one endpoint and a duration.

    The module calls into the rest of the library ([pendulum.now],
    [pendulum.datetime], [pendulum.parsing.parse], [DateTime.add], ...).
    Those collaborators are not part of the file; they are the fields of
    the class [Pendulum] below, and every theorem holds for all instances. *)

From Stdlib Require Import ZArith Lia.
From stdpp Require Import base option list strings gmap.

Local Open Scope string_scope.
Local Open Scope list_scope.
Local Open Scope Z_scope.

(** ** Data model *)

(** A timezone object: the constant [UTC] of [pendulum.tz.timezone], a
    fixed offset (seconds east of UTC), or a zone known by name. *)
Inductive Timezone : Type :=
| UTC
| FixedTimezone (offset : Z)
| NamedTimezone (name : string).

(** [datetime.datetime]: calendar date, wall time, optional [tzinfo]. *)
Record py_datetime : Type := mk_py_datetime {
  dt_year : Z; dt_month : Z; dt_day : Z;
  dt_hour : Z; dt_minute : Z; dt_second : Z; dt_microsecond : Z;
  dt_tzinfo : option Timezone
}.

(** [datetime.date] (that is not a [datetime.datetime]). *)
Record py_date : Type := mk_py_date {
  d_year : Z; d_month : Z; d_day : Z
}.

(** [datetime.time]; only the four fields the parser reads. *)
Record py_time : Type := mk_py_time {
  t_hour : Z; t_minute : Z; t_second : Z; t_microsecond : Z
}.

(** The typed values handed back to the caller. *)
Record Date : Type := mkDate { date_year : Z; date_month : Z; date_day : Z }.

Record Time : Type := mkTime {
  time_hour : Z; time_minute : Z; time_second : Z; time_microsecond : Z
}.

Record DateTime : Type := mkDateTime {
  year : Z; month : Z; day : Z;
  hour : Z; minute : Z; second : Z; microsecond : Z;
  tz : Timezone
}.

(** [pendulum.duration.Duration], by the attributes [_parse] reads. *)
Record Duration : Type := mkDuration {
  years : Z; months : Z; weeks : Z; remaining_days : Z;
  hours : Z; minutes : Z; remaining_seconds : Z; microseconds : Z
}.

(** [pendulum._pendulum.Duration], the duration of the compiled extension. *)
Record RustDuration : Type := mkRustDuration {
  rust_years : Z; rust_months : Z; rust_weeks : Z; rust_days : Z;
  rust_hours : Z; rust_minutes : Z; rust_seconds : Z; rust_microseconds : Z
}.

(** [pendulum.parsing._Interval]: each of the three attributes may be
    [None]. *)
Record _Interval : Type := mk_Interval {
  start : option py_datetime;
  end_ : option py_datetime;
  duration : option Duration
}.

Record Interval : Type := mkInterval {
  interval_start : DateTime;
  interval_end : DateTime
}.

(** What [base_parse] can return, by the first [isinstance] test of [_parse]
    the object passes.  [datetime.datetime] is a subclass of
    [datetime.date] and is tested first, so [PDate] stands for a date that
    is not a date-time.  [POther] is any object that passes none of the
    tests; it carries the name of its type. *)
Inductive Parsed : Type :=
| PDateTime (p : py_datetime)
| PDate (p : py_date)
| PTime (p : py_time)
| PInterval (p : _Interval)
| PDuration (p : Duration)
| PRustDuration (p : RustDuration)
| POther (type_name : string).

(** The return type of [_parse]:
    [Date | DateTime | Time | Duration | Interval]. *)
Inductive Value : Type :=
| VDate (v : Date)
| VDateTime (v : DateTime)
| VTime (v : Time)
| VDuration (v : Duration)
| VInterval (v : Interval).

(** Values of the keyword options.  [**options] is a [dict] from option
    names to arbitrary objects; these are the shapes the recognised keys
    take. *)
Inductive PyValue : Type :=
| PyNone
| PyBool (b : bool)
| PyInt (n : Z)
| PyStr (s : string)
| PyTimezone (z : Timezone)
| PyInstant (d : DateTime).

Abbreviation Options := (gmap string PyValue).

(** [options.get(key, default)] *)
Definition dict_get (options : Options) (key : string) (dflt : PyValue) : PyValue :=
  default dflt (options !! key).

(** ** Errors and effects *)

(** Errors raised inside the collaborators; [_parse] has no [try]. *)
Inductive external_error : Type :=
| ParserError
| InvalidFieldError
| UnresolvedTimezoneError.

(** What a call into a collaborator gives back. *)
Inductive reply (A : Type) : Type :=
| Returned (a : A)
| Failed (e : external_error).
Arguments Returned {A} a.
Arguments Failed {A} e.

Global Instance reply_ret : MRet reply := @Returned.
Global Instance reply_bind : MBind reply := fun A B k r =>
  match r with
  | Returned a => k a
  | Failed e => Failed e
  end.

(** How a run of [_parse] ends.  [t.cast] does nothing at run time: where
    the source casts an optional attribute to [datetime.datetime] and the
    attribute is [None], the model stops in [NoneOperand], an outcome no
    collaborator can produce, so that the assumption behind the cast can be
    stated and checked. *)
Inductive exn : Type :=
| NotImplementedError
| NoneOperand
| Propagated (e : external_error).

Inductive outcome (A : Type) : Type :=
| Ok (a : A)
| Raise (e : exn).
Arguments Ok {A} a.
Arguments Raise {A} e.

Global Instance outcome_ret : MRet outcome := @Ok.
Global Instance outcome_bind : MBind outcome := fun A B k r =>
  match r with
  | Ok a => k a
  | Raise e => Raise e
  end.
Global Instance outcome_fmap : FMap outcome := fun A B f r =>
  match r with
  | Ok a => Ok (f a)
  | Raise e => Raise e
  end.

(** The calls [_parse] makes into the collaborators, with their arguments,
    in the order made. *)
Inductive Event : Type :=
| call_now
| call_base_parse (text : string) (options : Options)
| call_datetime (y mo d h mi s us : Z) (tzarg : PyValue)
| call_date (y mo d : Z)
| call_time (h mi s us : Z)
| call_instance (dt : py_datetime) (tzarg : PyValue)
| call_add (dt : DateTime) (y mo w d h mi s us : Z)
| call_subtract (dt : DateTime) (y mo w d h mi s us : Z)
| call_duration (y mo w d h mi s us : Z).

(** A run: the calls made and the outcome. *)
Definition M (A : Type) : Type := (list Event * outcome A)%type.

Definition trace {A} (m : M A) : list Event := fst m.
Definition result {A} (m : M A) : outcome A := snd m.

Global Instance M_ret : MRet M := fun A a => ([], Ok a).
Global Instance M_bind : MBind M := fun A B k m =>
  match m with
  | (t, Ok a) => let '(t', r) := k a in (t ++ t', r)
  | (t, Raise e) => (t, Raise e)
  end.

Definition raise {A} (e : exn) : M A := ([], Raise e).

(** A failure inside a collaborator propagates unchanged to the caller. *)
Definition lift {A} (r : reply A) : outcome A :=
  match r with
  | Returned a => Ok a
  | Failed e => Raise (Propagated e)
  end.

(** One call into a collaborator: log it, propagate its failure. *)
Definition call {A} (ev : Event) (r : reply A) : M A := ([ev], lift r).

(** [t.cast(datetime.datetime, x)] on an optional attribute. *)
Definition cast {A} (x : option A) : M A :=
  match x with
  | Some a => mret a
  | None => raise NoneOperand
  end.

(** ** The collaborators *)

(** The eight fields [DateTime.add] and [DateTime.subtract] take. *)
Inductive Unit_ : Type :=
| Years | Months | Weeks | Days | Hours | Minutes | Seconds | Microseconds.

Class Pendulum : Type := {
  (** [pendulum.now()]: the reading of the system clock *)
  pendulum_now : DateTime;
  (** [pendulum.parsing.parse(text, **options)] *)
  base_parse : string → Options → reply Parsed;
  (** [pendulum.datetime(year, month, day, hour, minute, second,
      microsecond, tz=...)] *)
  pendulum_datetime : Z → Z → Z → Z → Z → Z → Z → PyValue → reply DateTime;
  (** [pendulum.date(year, month, day)] *)
  pendulum_date : Z → Z → Z → reply Date;
  (** [pendulum.time(hour, minute, second, microsecond)] *)
  pendulum_time : Z → Z → Z → Z → reply Time;
  (** [pendulum.instance(dt, tz=...)] *)
  pendulum_instance : py_datetime → PyValue → reply DateTime;
  (** [pendulum.duration(years=..., ..., microseconds=...)] *)
  pendulum_duration : Z → Z → Z → Z → Z → Z → Z → Z → reply Duration;
  (** calendar-aware addition and subtraction of one field *)
  add_unit : Unit_ → Z → DateTime → reply DateTime;
  subtract_unit : Unit_ → Z → DateTime → reply DateTime;
  (** whether [from pendulum._pendulum import Duration as RustDuration]
      succeeded, i.e. [RustDuration is not None] *)
  RustDuration_is_not_None : bool
}.

(** ** Constructors and arithmetic the source relies on *)

(** Modelled from the spec: [pendulum.interval(start, end)] is not under
    src/.  The spec (section 3) gives an [Interval] as two [DateTime]
    endpoints, produced as [Interval(start, end)]. *)
Definition pendulum_interval (s e : DateTime) : Interval :=
  {| interval_start := s; interval_end := e |}.

Section Parser.
Context `{P : Pendulum}.

(** Modelled from the spec: [DateTime.add] is not under src/.  The spec
    (section 4.2, case A) has it apply its fields in the fixed order years,
    months, weeks, days, hours, minutes, seconds, microseconds, each by a
    calendar-aware addition. *)
Definition DateTime_add (dt : DateTime)
    (years months weeks days hours minutes seconds microseconds : Z)
    : reply DateTime :=
  dt ← add_unit Years years dt;
  dt ← add_unit Months months dt;
  dt ← add_unit Weeks weeks dt;
  dt ← add_unit Days days dt;
  dt ← add_unit Hours hours dt;
  dt ← add_unit Minutes minutes dt;
  dt ← add_unit Seconds seconds dt;
  add_unit Microseconds microseconds dt.

(** Modelled from the spec: [DateTime.subtract] is not under src/.  The
    spec (section 4.2, case B) has it subtract the same fields in the same
    order, years first and microseconds last, each by a calendar-aware
    subtraction. *)
Definition DateTime_subtract (dt : DateTime)
    (years months weeks days hours minutes seconds microseconds : Z)
    : reply DateTime :=
  dt ← subtract_unit Years years dt;
  dt ← subtract_unit Months months dt;
  dt ← subtract_unit Weeks weeks dt;
  dt ← subtract_unit Days days dt;
  dt ← subtract_unit Hours hours dt;
  dt ← subtract_unit Minutes minutes dt;
  dt ← subtract_unit Seconds seconds dt;
  subtract_unit Microseconds microseconds dt.

(** ** The parser *)

(** [dt.add(years=duration.years, ..., microseconds=duration.microseconds)]
    as written at lines 93-102: [days] receives [remaining_days] and
    [seconds] receives [remaining_seconds]. *)
Definition add_duration (dt : DateTime) (duration : Duration) : M DateTime :=
  call (call_add dt (years duration) (months duration) (weeks duration)
          (remaining_days duration) (hours duration) (minutes duration)
          (remaining_seconds duration) (microseconds duration))
       (DateTime_add dt (years duration) (months duration) (weeks duration)
          (remaining_days duration) (hours duration) (minutes duration)
          (remaining_seconds duration) (microseconds duration)).

(** [dt.subtract(...)] as written at lines 110-119. *)
Definition subtract_duration (dt : DateTime) (duration : Duration) : M DateTime :=
  call (call_subtract dt (years duration) (months duration) (weeks duration)
          (remaining_days duration) (hours duration) (minutes duration)
          (remaining_seconds duration) (microseconds duration))
       (DateTime_subtract dt (years duration) (months duration)
          (weeks duration) (remaining_days duration) (hours duration)
          (minutes duration) (remaining_seconds duration)
          (microseconds duration)).

(** [pendulum.instance(dt, tz=options.get("tz", UTC))] *)
Definition instance_with_tz (dt : py_datetime) (options : Options) : M DateTime :=
  let tzarg := dict_get options "tz" (PyTimezone UTC) in
  call (call_instance dt tzarg) (pendulum_instance dt tzarg).

(** [parsed.tzinfo or options.get("tz", UTC)]: a [tzinfo] object is truthy,
    so the right operand is taken exactly when [tzinfo] is [None]. *)
Definition tzinfo_or_option (parsed : py_datetime) (options : Options) : PyValue :=
  match dt_tzinfo parsed with
  | Some z => PyTimezone z
  | None => dict_get options "tz" (PyTimezone UTC)
  end.

(** Lines 84-130 of [_parse]: the [_Interval] branch. *)
Definition convert_interval (parsed : _Interval) (options : Options) : M Value :=
  match duration parsed with
  | Some duration =>
      match start parsed with
      | Some start =>
          dt ← instance_with_tz start options;
          e ← add_duration dt duration;
          mret (VInterval (pendulum_interval dt e))
      | None =>
          e ← cast (end_ parsed);
          dt ← instance_with_tz e options;
          s ← subtract_duration dt duration;
          mret (VInterval (pendulum_interval s dt))
      end
  | None =>
      s ← cast (start parsed);
      s ← instance_with_tz s options;
      e ← cast (end_ parsed);
      e ← instance_with_tz e options;
      mret (VInterval (pendulum_interval s e))
  end.

(** Lines 64-147 of [_parse]: the chain of [isinstance] tests on the object
    [base_parse] returned. *)
Definition convert (parsed : Parsed) (options : Options) : M Value :=
  match parsed with
  | PDateTime p =>
      let tzarg := tzinfo_or_option p options in
      v ← call (call_datetime (dt_year p) (dt_month p) (dt_day p) (dt_hour p)
                  (dt_minute p) (dt_second p) (dt_microsecond p) tzarg)
               (pendulum_datetime (dt_year p) (dt_month p) (dt_day p)
                  (dt_hour p) (dt_minute p) (dt_second p) (dt_microsecond p)
                  tzarg);
      mret (VDateTime v)
  | PDate p =>
      v ← call (call_date (d_year p) (d_month p) (d_day p))
               (pendulum_date (d_year p) (d_month p) (d_day p));
      mret (VDate v)
  | PTime p =>
      v ← call (call_time (t_hour p) (t_minute p) (t_second p) (t_microsecond p))
               (pendulum_time (t_hour p) (t_minute p) (t_second p)
                  (t_microsecond p));
      mret (VTime v)
  | PInterval p => convert_interval p options
  | PDuration p => mret (VDuration p)
  | PRustDuration p =>
      if RustDuration_is_not_None then
        v ← call (call_duration (rust_years p) (rust_months p) (rust_weeks p)
                    (rust_days p) (rust_hours p) (rust_minutes p)
                    (rust_seconds p) (rust_microseconds p))
                 (pendulum_duration (rust_years p) (rust_months p)
                    (rust_weeks p) (rust_days p) (rust_hours p)
                    (rust_minutes p) (rust_seconds p) (rust_microseconds p));
        mret (VDuration v)
      else raise NotImplementedError
  | POther _ => raise NotImplementedError
  end.

(** [_parse(text, **options)] *)
Definition _parse (text : string) (options : Options) : M Value :=
  if decide (text = "now") then
    v ← call call_now (Returned pendulum_now);
    mret (VDateTime v)
  else
    parsed ← call (call_base_parse text options) (base_parse text options);
    convert parsed options.

(** [parse(text, **options)]: [options["now"] = options.get("now")], then
    [_parse(text, **options)]. *)
Definition parse (text : string) (options : Options) : M Value :=
  let options := <["now" := dict_get options "now" PyNone]> options in
  _parse text options.

End Parser.

(** ** A reference instance of the collaborators *)

(** Modelled from the spec: the factories, the timezone lookup, the
    calendar arithmetic and the grammar parser are not under src/.  The
    instance follows what the spec says of them (sections 1, 6 and 7): the
    factories validate their field ranges and fail with
    [InvalidFieldError], the timezone lookup fails with
    [UnresolvedTimezoneError], the arithmetic is calendar-aware (variable
    month lengths, leap years).  It is used to run the parser on concrete
    inputs; the theorems about the parser hold for every instance. *)
Module Reference.

Definition is_leap (y : Z) : bool :=
  (y mod 4 =? 0) && (negb (y mod 100 =? 0) || (y mod 400 =? 0)).

Definition days_in_month (y m : Z) : Z :=
  if m =? 2 then (if is_leap y then 29 else 28)
  else if (m =? 4) || (m =? 6) || (m =? 9) || (m =? 11) then 30
  else 31.

Definition valid_date (y m d : Z) : bool :=
  (1 <=? y) && (y <=? 9999) && (1 <=? m) && (m <=? 12)
  && (1 <=? d) && (d <=? days_in_month y m).

Definition valid_time (h mi s us : Z) : bool :=
  (0 <=? h) && (h <? 24) && (0 <=? mi) && (mi <? 60)
  && (0 <=? s) && (s <? 60) && (0 <=? us) && (us <? 1000000).

(** Days since 1970-01-01 of a date of the proleptic Gregorian calendar,
    and back. *)
Definition days_from_civil (y m d : Z) : Z :=
  let y := if m <=? 2 then y - 1 else y in
  let era := y / 400 in
  let yoe := y - era * 400 in
  let mp := (m + 9) mod 12 in
  let doy := (153 * mp + 2) / 5 + d - 1 in
  let doe := yoe * 365 + yoe / 4 - yoe / 100 + doy in
  era * 146097 + doe - 719468.

Definition civil_from_days (z : Z) : Z * Z * Z :=
  let z := z + 719468 in
  let era := z / 146097 in
  let doe := z - era * 146097 in
  let yoe := (doe - doe / 1460 + doe / 36524 - doe / 146096) / 365 in
  let doy := doe - (365 * yoe + yoe / 4 - yoe / 100) in
  let mp := (5 * doy + 2) / 153 in
  let d := doy - (153 * mp + 2) / 5 + 1 in
  let m := if mp <? 10 then mp + 3 else mp - 9 in
  let y := yoe + era * 400 in
  (if m <=? 2 then y + 1 else y, m, d).

Definition known_zones : list string :=
  ["Europe/Paris"; "America/New_York"; "Asia/Tokyo"].

Definition resolve_timezone (v : PyValue) : reply Timezone :=
  match v with
  | PyTimezone z => Returned z
  | PyStr name =>
      if decide (name = "UTC") then Returned UTC
      else if decide (name ∈ known_zones) then Returned (NamedTimezone name)
      else Failed UnresolvedTimezoneError
  | _ => Failed UnresolvedTimezoneError
  end.

Definition datetime (y mo d h mi s us : Z) (tzarg : PyValue) : reply DateTime :=
  if valid_date y mo d && valid_time h mi s us then
    z ← resolve_timezone tzarg;
    mret (mkDateTime y mo d h mi s us z)
  else Failed InvalidFieldError.

Definition date (y mo d : Z) : reply Date :=
  if valid_date y mo d then Returned (mkDate y mo d)
  else Failed InvalidFieldError.

Definition time (h mi s us : Z) : reply Time :=
  if valid_time h mi s us then Returned (mkTime h mi s us)
  else Failed InvalidFieldError.

(** An aware [datetime] keeps its own zone; a naive one takes [tz]. *)
Definition instance (dt : py_datetime) (tzarg : PyValue) : reply DateTime :=
  datetime (dt_year dt) (dt_month dt) (dt_day dt) (dt_hour dt) (dt_minute dt)
    (dt_second dt) (dt_microsecond dt)
    (match dt_tzinfo dt with Some z => PyTimezone z | None => tzarg end).

Definition duration (y mo w d h mi s us : Z) : reply Duration :=
  Returned (mkDuration y mo w d h mi s us).

Definition checked (y mo d h mi s us : Z) (z : Timezone) : reply DateTime :=
  if valid_date y mo d && valid_time h mi s us
  then Returned (mkDateTime y mo d h mi s us z)
  else Failed InvalidFieldError.

(** Move to another month, keeping the day where the month has it and
    taking the last day of the month otherwise. *)
Definition shift_months (n : Z) (dt : DateTime) : reply DateTime :=
  let total := year dt * 12 + (month dt - 1) + n in
  let y := total / 12 in
  let m := total mod 12 + 1 in
  checked y m (Z.min (day dt) (days_in_month y m))
    (hour dt) (minute dt) (second dt) (microsecond dt) (tz dt).

Definition microseconds_per_day : Z := 86400000000.

(** Move along the time line by a number of microseconds. *)
Definition shift_microseconds (n : Z) (dt : DateTime) : reply DateTime :=
  let of_day :=
    ((hour dt * 60 + minute dt) * 60 + second dt) * 1000000 + microsecond dt in
  let total := of_day + n in
  let days := days_from_civil (year dt) (month dt) (day dt)
              + total / microseconds_per_day in
  let rest := total mod microseconds_per_day in
  let '(y, m, d) := civil_from_days days in
  checked y m d (rest / 3600000000) (rest / 60000000 mod 60)
    (rest / 1000000 mod 60) (rest mod 1000000) (tz dt).

Definition add (u : Unit_) (n : Z) (dt : DateTime) : reply DateTime :=
  match u with
  | Years => shift_months (12 * n) dt
  | Months => shift_months n dt
  | Weeks => shift_microseconds (7 * n * microseconds_per_day) dt
  | Days => shift_microseconds (n * microseconds_per_day) dt
  | Hours => shift_microseconds (n * 3600000000) dt
  | Minutes => shift_microseconds (n * 60000000) dt
  | Seconds => shift_microseconds (n * 1000000) dt
  | Microseconds => shift_microseconds n dt
  end.

Definition subtract (u : Unit_) (n : Z) (dt : DateTime) : reply DateTime :=
  add u (- n) dt.

Definition midnight (y mo d : Z) (z : option Timezone) : py_datetime :=
  mk_py_datetime y mo d 0 0 0 0 z.

(** A grammar of a few texts, one for each kind of result. *)
Definition grammar (text : string) (options : Options) : reply Parsed :=
  if decide (text = "2021-05-03T10:00:00+02:00") then
    Returned (PDateTime (mk_py_datetime 2021 5 3 10 0 0 0
                           (Some (FixedTimezone 7200))))
  else if decide (text = "2021-05-03T10:00:00") then
    Returned (PDateTime (mk_py_datetime 2021 5 3 10 0 0 0 None))
  else if decide (text = "2021-05-03") then
    Returned (PDate (mk_py_date 2021 5 3))
  else if decide (text = "10:30:15") then
    Returned (PTime (mk_py_time 10 30 15 0))
  else if decide (text = "P1Y2M") then
    Returned (PDuration (mkDuration 1 2 0 0 0 0 0 0))
  else if decide (text = "2021-01-01/P1M") then
    Returned (PInterval (mk_Interval (Some (midnight 2021 1 1 None)) None
                           (Some (mkDuration 0 1 0 0 0 0 0 0))))
  else if decide (text = "2021-01-31/P1M") then
    Returned (PInterval (mk_Interval (Some (midnight 2021 1 31 None)) None
                           (Some (mkDuration 0 1 0 0 0 0 0 0))))
  else if decide (text = "P1Y2M10DT2H30M/2008-05-11T15:30:00Z") then
    Returned (PInterval (mk_Interval None
                           (Some (mk_py_datetime 2008 5 11 15 30 0 0 (Some UTC)))
                           (Some (mkDuration 1 2 1 3 2 30 0 0))))
  else if decide (text = "2021-01-01/2021-02-01") then
    Returned (PInterval (mk_Interval (Some (midnight 2021 1 1 None))
                           (Some (midnight 2021 2 1 None)) None))
  else Failed ParserError.

(** A grammar that returns the same object for every text. *)
Definition constant_grammar (parsed : Parsed)
    (text : string) (options : Options) : reply Parsed :=
  Returned parsed.

(** A grammar that anchors a time of day on the [now] option when the key
    is there, and returns the bare time when it is not. *)
Definition anchored_grammar (text : string) (options : Options) : reply Parsed :=
  if decide (text = "10:30:15") then
    match options !! "now" with
    | None => Returned (PTime (mk_py_time 10 30 15 0))
    | Some (PyInstant n) =>
        Returned (PDateTime (mk_py_datetime (year n) (month n) (day n)
                               10 30 15 0 (Some (tz n))))
    | Some _ => Failed ParserError
    end
  else grammar text options.

(** The clock stands at 2024-02-29 12:00:00 UTC. *)
Definition clock : DateTime := mkDateTime 2024 2 29 12 0 0 0 UTC.

Definition collaborators (g : string → Options → reply Parsed) : Pendulum := {|
  pendulum_now := clock;
  base_parse := g;
  pendulum_datetime := datetime;
  pendulum_date := date;
  pendulum_time := time;
  pendulum_instance := instance;
  pendulum_duration := duration;
  add_unit := add;
  subtract_unit := subtract;
  RustDuration_is_not_None := true
|}.

End Reference.

(** The reference collaborators with the reference grammar. *)
Definition reference : Pendulum := Reference.collaborators Reference.grammar.

(** ** Vocabulary of the properties *)

(** Calls of the clock and of the grammar parser. *)
Definition entry_call (ev : Event) : bool :=
  match ev with
  | call_now | call_base_parse _ _ => true
  | _ => false
  end.

(** The fields of a duration as [_parse] hands them to [add] and
    [subtract], in the order years, months, weeks, remaining days, hours,
    minutes, remaining seconds, microseconds. *)
Definition fields_in_order (D : Duration) : list (Unit_ * Z) :=
  [ (Years, years D); (Months, months D); (Weeks, weeks D);
    (Days, remaining_days D); (Hours, hours D); (Minutes, minutes D);
    (Seconds, remaining_seconds D); (Microseconds, microseconds D) ].

(** One calendar-aware step per field, first field first. *)
Fixpoint apply_in_order (step : Unit_ → Z → DateTime → reply DateTime)
    (fields : list (Unit_ * Z)) (dt : DateTime) : reply DateTime :=
  match fields with
  | [] => Returned dt
  | (u, n) :: fields => dt ← step u n dt; apply_in_order step fields dt
  end.

(** Calls of [DateTime.add] and [DateTime.subtract]. *)
Definition arithmetic_call (ev : Event) : bool :=
  match ev with
  | call_add _ _ _ _ _ _ _ _ _ | call_subtract _ _ _ _ _ _ _ _ _ => true
  | _ => false
  end.

(** The number of attributes of an [_Interval] that are not [None]. *)
Definition present {A} (x : option A) : nat :=
  match x with Some _ => 1%nat | None => 0%nat end.

Definition at_least_two_present (i : _Interval) : bool :=
  (2 <=? present (start i) + present (end_ i) + present (duration i))%nat.

(** At most one endpoint is omitted, an omitted endpoint being one that
    the duration stands in for (spec, section 3). *)
Definition at_most_one_endpoint_omitted (i : _Interval) : bool :=
  match start i, end_ i with
  | Some _, Some _ => true
  | Some _, None | None, Some _ => bool_decide (is_Some (duration i))
  | None, None => false
  end.


(** Inputs used to run the parser on the reference collaborators. *)
Definition paris_options : Options := {["tz" := PyStr "Europe/Paris"]}.


(** A duration as the compiled extension gives it: ten days, five seconds. *)
Definition rust_p1y2m10d : RustDuration := mkRustDuration 1 2 0 10 0 0 5 0.

(** An interval with a start and nothing else. *)
Definition lone_start : _Interval :=
  mk_Interval (Some (mk_py_datetime 2021 1 1 0 0 0 0 None)) None None.

(** Options that differ from the empty set in a key [_parse] does not
    read. *)
Definition lenient_options : Options := {["strict" := PyBool false]}.

(** An interval that carries all three of start, end and duration. *)
Definition overdetermined : _Interval :=
  mk_Interval (Some (Reference.midnight 2021 1 31 None))
    (Some (Reference.midnight 2030 1 1 None))
    (Some (mkDuration 0 1 0 0 0 0 0 0)).

(** The kinds of value [_parse] returns, and the kind each parsed object
    is converted to; an object that passes no [isinstance] test has none. *)
Inductive Kind : Type := KDate | KDateTime | KTime | KDuration | KInterval.

Definition kind_of_value (v : Value) : Kind :=
  match v with
  | VDate _ => KDate
  | VDateTime _ => KDateTime
  | VTime _ => KTime
  | VDuration _ => KDuration
  | VInterval _ => KInterval
  end.

Definition kind_of_parsed (parsed : Parsed) : option Kind :=
  match parsed with
  | PDateTime _ => Some KDateTime
  | PDate _ => Some KDate
  | PTime _ => Some KTime
  | PInterval _ => Some KInterval
  | PDuration _ | PRustDuration _ => Some KDuration
  | POther _ => None
  end.

(** The objects that fall through every test of [_parse] down to line 147:
    those of no known type, and a duration of the compiled extension when
    [RustDuration] is [None]. *)
Definition unsupported `{P : Pendulum} (parsed : Parsed) : bool :=
  match parsed with
  | POther _ => true
  | PRustDuration _ => negb RustDuration_is_not_None
  | _ => false
  end.

(** The objects whose conversion never evaluates [options.get("tz", UTC)]:
    all but a [datetime] without [tzinfo] and an [_Interval]. *)
Definition tz_free (parsed : Parsed) : bool :=
  match parsed with
  | PDateTime p => bool_decide (is_Some (dt_tzinfo p))
  | PInterval _ => false
  | _ => true
  end.

(** The error a reply carries, if any. *)
Definition failure {A} (r : reply A) : option external_error :=
  match r with
  | Returned _ => None
  | Failed e => Some e
  end.

(** The error with which a logged call ended, if it failed: the reply of
    the collaborator at the logged arguments. *)
Definition failure_of `{P : Pendulum} (ev : Event) : option external_error :=
  match ev with
  | call_now => None
  | call_base_parse text options => failure (base_parse text options)
  | call_datetime y mo d h mi s us tzarg =>
      failure (pendulum_datetime y mo d h mi s us tzarg)
  | call_date y mo d => failure (pendulum_date y mo d)
  | call_time h mi s us => failure (pendulum_time h mi s us)
  | call_instance dt tzarg => failure (pendulum_instance dt tzarg)
  | call_add dt y mo w d h mi s us =>
      failure (DateTime_add dt y mo w d h mi s us)
  | call_subtract dt y mo w d h mi s us =>
      failure (DateTime_subtract dt y mo w d h mi s us)
  | call_duration y mo w d h mi s us =>
      failure (pendulum_duration y mo w d h mi s us)
  end.

(** A run in which no error was swallowed: every call but the last
    succeeded, and a propagated error is the failure of the last call. *)
Definition fails_last `{P : Pendulum} {A} (m : M A) : Prop :=
  match result m with
  | Raise (Propagated e) =>
      ∃ calls ev, trace m = calls ++ [ev]
                  ∧ Forall (λ c, failure_of c = None) calls
                  ∧ failure_of ev = Some e
  | _ => Forall (λ c, failure_of c = None) (trace m)
  end.

(** The timezone argument of a logged [pendulum.instance] call is the
    value [tzarg]; other calls are not constrained. *)
Definition instance_gets (tzarg : PyValue) (ev : Event) : Prop :=
  match ev with
  | call_instance _ tzarg' => tzarg' = tzarg
  | _ => True
  end.

(** ** Properties *)

(** *** Runs *)

Lemma result_bind {A B} (m : M A) (k : A → M B) :
  result (m ≫= k) = result m ≫= (λ a, result (k a)).
Proof.
  destruct m as [t [a|e]]; simpl; [|reflexivity].
  unfold result. cbn. destruct (k a); reflexivity.
Qed.

Lemma trace_bind {A B} (m : M A) (k : A → M B) :
  trace (m ≫= k) =
  trace m ++ match result m with Ok a => trace (k a) | Raise _ => [] end.
Proof.
  destruct m as [t [a|e]]; unfold trace; cbn.
  - destruct (k a); reflexivity.
  - symmetry. apply app_nil_r.
Qed.

Lemma result_call {A} (ev : Event) (r : reply A) : result (call ev r) = lift r.
Proof. reflexivity. Qed.

Lemma lift_not_NoneOperand {A} (r : reply A) : lift r ≠ Raise NoneOperand.
Proof. destruct r; discriminate. Qed.

(** Unfolds the run of a branch and splits on every reply in it. *)
Ltac run :=
  unfold instance_with_tz, add_duration, subtract_duration, call, cast,
    raise, lift, trace, result;
  cbn -[DateTime_add DateTime_subtract];
  repeat (case_match; simplify_eq;
          cbn -[DateTime_add DateTime_subtract] in *);
  try done.

Section Properties.
Context `{P : Pendulum}.

Implicit Types (text : string) (options : Options).

(** *** The two arms of [_parse] *)

Lemma _parse_now options :
  _parse "now" options = ([call_now], Ok (VDateTime pendulum_now)).
Proof. reflexivity. Qed.

Lemma _parse_other text options :
  text ≠ "now" →
  _parse text options =
  (parsed ← call (call_base_parse text options) (base_parse text options);
   convert parsed options).
Proof. intros Hne. unfold _parse. case_decide; [contradiction|reflexivity]. Qed.

Lemma _parse_parsed text options parsed :
  text ≠ "now" → base_parse text options = Returned parsed →
  _parse text options =
  (call_base_parse text options :: trace (convert parsed options),
   result (convert parsed options)).
Proof.
  intros Hne Hp. rewrite _parse_other by done. rewrite Hp.
  cbn. destruct (convert parsed options); reflexivity.
Qed.

Lemma convert_interval_no_entry_call p options :
  Forall (λ ev, entry_call ev = false) (trace (convert_interval p options)).
Proof.
  destruct p as [[s|] [e|] [d|]]; unfold convert_interval; run;
    repeat constructor.
Qed.

Lemma convert_no_entry_call parsed options :
  Forall (λ ev, entry_call ev = false) (trace (convert parsed options)).
Proof.
  destruct parsed; try apply convert_interval_no_entry_call;
    unfold convert; run; repeat constructor.
Qed.

End Properties.

(** *** The literal "now" *)

Section Now.
Context `{P : Pendulum}.


End Now.


(** *** Dispatch on the kind of the parsed object *)

Section Dispatch.
Context `{P : Pendulum}.

Implicit Types (text : string) (options : Options).

(** C3.  For a text parsed as a date-time, the [DateTime] returned is the
    one [pendulum.datetime] builds from the parsed fields and one timezone
    argument, chosen by strict precedence: the [tzinfo] of the parsed
    object when it has one, whatever [options] hold; otherwise the [tz]
    option; and [UTC] when no [tz] option was given. *)
Theorem datetime_timezone_precedence text options (p : py_datetime) :
  text ≠ "now" →
  base_parse text options = Returned (PDateTime p) →
  ∃ tzarg : PyValue,
    _parse text options =
      ([call_base_parse text options;
        call_datetime (dt_year p) (dt_month p) (dt_day p) (dt_hour p)
          (dt_minute p) (dt_second p) (dt_microsecond p) tzarg],
       VDateTime <$> lift (pendulum_datetime (dt_year p) (dt_month p)
                             (dt_day p) (dt_hour p) (dt_minute p)
                             (dt_second p) (dt_microsecond p) tzarg))
    ∧ (∀ z, dt_tzinfo p = Some z → tzarg = PyTimezone z)
    ∧ (dt_tzinfo p = None → ∀ Z, options !! "tz" = Some Z → tzarg = Z)
    ∧ (dt_tzinfo p = None → options !! "tz" = None → tzarg = PyTimezone UTC).
Proof.
  intros Hne Hp. exists (tzinfo_or_option p options). split.
  - rewrite (_parse_parsed _ _ _ Hne Hp). unfold convert. run.
  - unfold tzinfo_or_option, dict_get.
    split; [|split].
    + intros z Hz. rewrite Hz. reflexivity.
    + intros Hz Z HZ. rewrite Hz, HZ. reflexivity.
    + intros Hz Hopt. rewrite Hz, Hopt. reflexivity.
Qed.

(** C6.  An object of none of the known kinds makes [_parse] raise
    [NotImplementedError] (the spec's UnsupportedResult) right after the
    grammar parser returned; no value is returned. *)
Theorem unknown_kind_raises text options (type_name : string) :
  text ≠ "now" →
  base_parse text options = Returned (POther type_name) →
  _parse text options =
    ([call_base_parse text options], Raise NotImplementedError)
  ∧ ∀ v, result (_parse text options) ≠ Ok v.
Proof.
  intros Hne Hp. rewrite (_parse_parsed _ _ _ Hne Hp). split; [reflexivity|].
  intros v. discriminate.
Qed.

(** C7.  An object that already is a public [Duration] is returned as it
    is, field for field, with no further call; classifying the returned
    duration again gives it back again. *)
Theorem public_duration_passes_through text options (d : Duration) :
  text ≠ "now" →
  base_parse text options = Returned (PDuration d) →
  _parse text options = ([call_base_parse text options], Ok (VDuration d))
  ∧ ∀ options', convert (PDuration d) options' = mret (VDuration d).
Proof.
  intros Hne Hp. rewrite (_parse_parsed _ _ _ Hne Hp). split; reflexivity.
Qed.

(** C8.  For a text parsed as a date, [_parse] returns the [Date] that
    [pendulum.date] builds from exactly the parsed year, month and day; the
    only calls are the grammar parser and that factory, and no timezone is
    passed anywhere. *)
Theorem date_from_parsed_fields text options (p : py_date) :
  text ≠ "now" →
  base_parse text options = Returned (PDate p) →
  _parse text options =
    ([call_base_parse text options;
      call_date (d_year p) (d_month p) (d_day p)],
     VDate <$> lift (pendulum_date (d_year p) (d_month p) (d_day p)))
  ∧ ∀ v, pendulum_date (d_year p) (d_month p) (d_day p) = Returned v →
         result (_parse text options) = Ok (VDate v).
Proof.
  intros Hne Hp. rewrite (_parse_parsed _ _ _ Hne Hp). unfold convert.
  split; [run|]. intros v Hv. rewrite result_bind, result_call, Hv.
  reflexivity.
Qed.

End Dispatch.

(** *** Intervals *)

Section Intervals.
Context `{P : Pendulum}.

Implicit Types (text : string) (options : Options).

Lemma DateTime_add_in_order dt (D : Duration) :
  DateTime_add dt (years D) (months D) (weeks D) (remaining_days D) (hours D)
    (minutes D) (remaining_seconds D) (microseconds D)
  = apply_in_order add_unit (fields_in_order D) dt.
Proof.
  unfold DateTime_add. cbn.
  repeat (destruct (add_unit _ _ _); cbn; [|reflexivity]). reflexivity.
Qed.

Lemma DateTime_subtract_in_order dt (D : Duration) :
  DateTime_subtract dt (years D) (months D) (weeks D) (remaining_days D)
    (hours D) (minutes D) (remaining_seconds D) (microseconds D)
  = apply_in_order subtract_unit (fields_in_order D) dt.
Proof.
  unfold DateTime_subtract. cbn.
  repeat (destruct (subtract_unit _ _ _); cbn; [|reflexivity]). reflexivity.
Qed.

(** The interval branch when a start and a duration are present. *)
Lemma convert_start_duration (S : py_datetime) e0 (D : Duration) options :
  result (convert (PInterval (mk_Interval (Some S) e0 (Some D))) options) =
  (s ← lift (pendulum_instance S (dict_get options "tz" (PyTimezone UTC)));
   e ← lift (DateTime_add s (years D) (months D) (weeks D) (remaining_days D)
               (hours D) (minutes D) (remaining_seconds D) (microseconds D));
   mret (VInterval {| interval_start := s; interval_end := e |})).
Proof. unfold convert, convert_interval. run. Qed.

(** The interval branch when a duration and an end are present and the
    start is not. *)
Lemma convert_duration_end (E : py_datetime) (D : Duration) options :
  result (convert (PInterval (mk_Interval None (Some E) (Some D))) options) =
  (e ← lift (pendulum_instance E (dict_get options "tz" (PyTimezone UTC)));
   s ← lift (DateTime_subtract e (years D) (months D) (weeks D)
               (remaining_days D) (hours D) (minutes D)
               (remaining_seconds D) (microseconds D));
   mret (VInterval {| interval_start := s; interval_end := e |})).
Proof. unfold convert, convert_interval. run. Qed.

(** C2.  With a start [S], a duration [D] and no end, the interval
    returned starts at [S] (made a zoned instant by [pendulum.instance])
    and ends at that instant plus [D]; with an end [E], a duration [D] and
    no start, it ends at [E] and starts at that instant minus [D].  In both
    the fields of [D] are applied in the order years, months, weeks,
    remaining days, hours, minutes, remaining seconds, microseconds, by
    calendar-aware addition, respectively subtraction. *)
Theorem interval_from_endpoint_and_duration text options
    (S E : py_datetime) (D : Duration) :
  text ≠ "now" →
  let tzarg := dict_get options "tz" (PyTimezone UTC) in
  (base_parse text options
     = Returned (PInterval (mk_Interval (Some S) None (Some D))) →
   result (_parse text options) =
     (s ← lift (pendulum_instance S tzarg);
      e ← lift (apply_in_order add_unit (fields_in_order D) s);
      mret (VInterval {| interval_start := s; interval_end := e |})))
  ∧ (base_parse text options
       = Returned (PInterval (mk_Interval None (Some E) (Some D))) →
     result (_parse text options) =
       (e ← lift (pendulum_instance E tzarg);
        s ← lift (apply_in_order subtract_unit (fields_in_order D) e);
        mret (VInterval {| interval_start := s; interval_end := e |}))).
Proof.
  intros Hne tzarg. split; intros Hp; rewrite (_parse_parsed _ _ _ Hne Hp).
  - unfold result at 1. cbn [snd]. rewrite convert_start_duration.
    fold tzarg. destruct (pendulum_instance S tzarg); [cbn|reflexivity].
    rewrite DateTime_add_in_order. reflexivity.
  - unfold result at 1. cbn [snd]. rewrite convert_duration_end.
    fold tzarg. destruct (pendulum_instance E tzarg); [cbn|reflexivity].
    rewrite DateTime_subtract_in_order. reflexivity.
Qed.

(** C4.  With a start and an end and no duration, both are made zoned
    instants by [pendulum.instance], each with the [tz] option ([UTC] when
    it is not given), and paired as they are: no call of [add] or
    [subtract] is made. *)
Theorem interval_from_both_endpoints text options (S E : py_datetime) :
  text ≠ "now" →
  base_parse text options
    = Returned (PInterval (mk_Interval (Some S) (Some E) None)) →
  let tzarg := dict_get options "tz" (PyTimezone UTC) in
  result (_parse text options) =
    (s ← lift (pendulum_instance S tzarg);
     e ← lift (pendulum_instance E tzarg);
     mret (VInterval {| interval_start := s; interval_end := e |}))
  ∧ Forall (λ ev, arithmetic_call ev = false) (trace (_parse text options))
  ∧ (options !! "tz" = None → tzarg = PyTimezone UTC)
  ∧ (∀ Z, options !! "tz" = Some Z → tzarg = Z).
Proof.
  intros Hne Hp tzarg. rewrite (_parse_parsed _ _ _ Hne Hp).
  split; [|split; [|split]].
  - unfold convert, convert_interval. subst tzarg. run.
  - unfold convert, convert_interval. run; repeat constructor.
  - intros Hopt. unfold tzarg, dict_get. rewrite Hopt. reflexivity.
  - intros Z Hopt. unfold tzarg, dict_get. rewrite Hopt. reflexivity.
Qed.

(** C9.  When a start and a duration are present, the end of the interval
    returned is the start plus the duration; an end carried by the parsed
    object is not read, and the run is the same whatever it is. *)
Theorem interval_end_is_ignored text options
    (S : py_datetime) (D : Duration) (e0 : option py_datetime) :
  text ≠ "now" →
  base_parse text options
    = Returned (PInterval (mk_Interval (Some S) e0 (Some D))) →
  result (_parse text options) =
    (s ← lift (pendulum_instance S (dict_get options "tz" (PyTimezone UTC)));
     e ← lift (DateTime_add s (years D) (months D) (weeks D)
                 (remaining_days D) (hours D) (minutes D)
                 (remaining_seconds D) (microseconds D));
     mret (VInterval {| interval_start := s; interval_end := e |}))
  ∧ ∀ e1, convert (PInterval (mk_Interval (Some S) e0 (Some D))) options
          = convert (PInterval (mk_Interval (Some S) e1 (Some D))) options.
Proof.
  intros Hne Hp. rewrite (_parse_parsed _ _ _ Hne Hp). split.
  - apply convert_start_duration.
  - intros e1. reflexivity.
Qed.

(** C5.  If the parsed interval has at least two of start, end and
    duration (equivalently: at most one endpoint is omitted, the duration
    standing in for it), then where the duration is present and the start
    is not, the end is present; where the duration is absent, start and end
    are both present; and no run ends because a cast met [None]. *)
Theorem interval_accesses_are_safe text options (i : _Interval) :
  text ≠ "now" →
  base_parse text options = Returned (PInterval i) →
  at_least_two_present i = true →
  (∀ j, at_least_two_present j = at_most_one_endpoint_omitted j)
  ∧ (is_Some (duration i) → start i = None → is_Some (end_ i))
  ∧ (duration i = None → is_Some (start i) ∧ is_Some (end_ i))
  ∧ result (_parse text options) ≠ Raise NoneOperand.
Proof.
  intros Hne Hp Htwo. split; [|split; [|split]].
  - intros [[?|] [?|] [?|]]; reflexivity.
  - destruct i as [[?|] [?|] [?|]]; cbn in *; intros [] ?; by eauto.
  - destruct i as [[?|] [?|] [?|]]; cbn in *; intros ?; by eauto.
  - rewrite (_parse_parsed _ _ _ Hne Hp).
    destruct i as [[?|] [?|] [?|]]; try discriminate Htwo;
      unfold convert, convert_interval; run.
Qed.

End Intervals.

(** *** The entry point *)

Section Entry.
Context `{P : Pendulum}.

Implicit Types (text : string) (options : Options).

(** [_parse] reads one option itself, [tz]; the others it only forwards
    to the grammar parser (line 62). *)
Lemma convert_reads_only_tz parsed options options' :
  options !! "tz" = options' !! "tz" →
  convert parsed options = convert parsed options'.
Proof.
  intros Htz. destruct parsed as [| | |[[?|] [?|] [?|]]| | |];
    unfold convert, convert_interval, tzinfo_or_option, instance_with_tz,
      dict_get; rewrite ?Htz; reflexivity.
Qed.



End Entry.

(** The assumption [unset_now_is_null] is about the grammar parser and
    cannot be dropped: with a grammar that tells an absent [now] from a
    null one, [parse] and [_parse] part ways. *)
Lemma unset_now_is_null_is_needed :
  let P := Reference.collaborators Reference.anchored_grammar in
  result (parse (P := P) "10:30:15" ∅) = Raise (Propagated ParserError)
  ∧ result (_parse (P := P) "10:30:15" ∅) = Ok (VTime (mkTime 10 30 15 0)).
Proof. split; vm_compute; reflexivity. Qed.

(** ** The parser on the reference collaborators *)

(** The two examples of the spec (section 8). *)
Example parse_interval_of_one_month :
  result (parse (P := reference) "2021-01-01/P1M" ∅)
  = Ok (VInterval {| interval_start := mkDateTime 2021 1 1 0 0 0 0 UTC;
                     interval_end := mkDateTime 2021 2 1 0 0 0 0 UTC |}).
Proof. vm_compute. reflexivity. Qed.

Example parse_duration :
  result (parse (P := reference) "P1Y2M" ∅)
  = Ok (VDuration (mkDuration 1 2 0 0 0 0 0 0)).
Proof. vm_compute. reflexivity. Qed.

(** A month added at the end of January ends in February. *)
Example parse_interval_start_duration :
  result (parse (P := reference) "2021-01-31/P1M" ∅)
  = Ok (VInterval {| interval_start := mkDateTime 2021 1 31 0 0 0 0 UTC;
                     interval_end := mkDateTime 2021 2 28 0 0 0 0 UTC |}).
Proof. vm_compute. reflexivity. Qed.

Example parse_datetime_explicit_offset :
  result (parse (P := reference) "2021-05-03T10:00:00+02:00" paris_options)
  = Ok (VDateTime (mkDateTime 2021 5 3 10 0 0 0 (FixedTimezone 7200))).
Proof. vm_compute. reflexivity. Qed.

Example parse_datetime_tz_option :
  result (parse (P := reference) "2021-05-03T10:00:00" paris_options)
  = Ok (VDateTime (mkDateTime 2021 5 3 10 0 0 0
                     (NamedTimezone "Europe/Paris"))).
Proof. vm_compute. reflexivity. Qed.

Example parse_datetime_default_utc :
  result (parse (P := reference) "2021-05-03T10:00:00" ∅)
  = Ok (VDateTime (mkDateTime 2021 5 3 10 0 0 0 UTC)).
Proof. vm_compute. reflexivity. Qed.

Example parse_unknown_text :
  result (parse (P := reference) "tomorrow" ∅) = Raise (Propagated ParserError).
Proof. vm_compute. reflexivity. Qed.

(** With fewer than two of the three attributes present a cast does meet
    [None]: an interval with a start and nothing else. *)
Lemma lone_start_meets_None :
  result (_parse
            (P := Reference.collaborators
                    (Reference.constant_grammar
                       (PInterval (mk_Interval
                                     (Some (Reference.midnight 2021 1 1 None))
                                     None None))))
            "2021-01-01/" ∅)
  = Raise NoneOperand.
Proof. vm_compute. reflexivity. Qed.

(** *** The theorems at concrete inputs *)

Lemma datetime_timezone_precedence_witness :
  ∃ tzarg : PyValue,
    tzarg = PyTimezone (FixedTimezone 7200)
    ∧ result (_parse (P := reference) "2021-05-03T10:00:00+02:00"
                {["tz" := PyStr "Europe/Paris"]})
      = VDateTime <$> lift (Reference.datetime 2021 5 3 10 0 0 0 tzarg).
Proof.
  destruct (datetime_timezone_precedence (P := reference)
              "2021-05-03T10:00:00+02:00" {["tz" := PyStr "Europe/Paris"]}
              (mk_py_datetime 2021 5 3 10 0 0 0 (Some (FixedTimezone 7200))))
    as (tzarg & Hrun & Hz & _).
  - discriminate.
  - reflexivity.
  - exists tzarg. split.
    + apply Hz. reflexivity.
    + rewrite Hrun. reflexivity.
Defined.

Lemma unknown_kind_raises_witness :
  _parse (P := Reference.collaborators
                 (Reference.constant_grammar (POther "complex"))) "1+2j" ∅
  = ([call_base_parse "1+2j" ∅], Raise NotImplementedError).
Proof.
  apply (unknown_kind_raises
           (P := Reference.collaborators
                   (Reference.constant_grammar (POther "complex")))
           "1+2j" ∅ "complex").
  - discriminate.
  - reflexivity.
Defined.

Lemma public_duration_passes_through_witness :
  _parse (P := reference) "P1Y2M" ∅
  = ([call_base_parse "P1Y2M" ∅], Ok (VDuration (mkDuration 1 2 0 0 0 0 0 0))).
Proof.
  apply (public_duration_passes_through (P := reference) "P1Y2M" ∅
           (mkDuration 1 2 0 0 0 0 0 0)).
  - discriminate.
  - reflexivity.
Defined.

Lemma date_from_parsed_fields_witness :
  result (_parse (P := reference) "2021-05-03" ∅) = Ok (VDate (mkDate 2021 5 3)).
Proof.
  apply (date_from_parsed_fields (P := reference) "2021-05-03" ∅
           (mk_py_date 2021 5 3)).
  - discriminate.
  - reflexivity.
  - reflexivity.
Defined.

Lemma interval_from_endpoint_and_duration_witness :
  result (_parse (P := reference) "2021-01-31/P1M" ∅)
  = Ok (VInterval {| interval_start := mkDateTime 2021 1 31 0 0 0 0 UTC;
                     interval_end := mkDateTime 2021 2 28 0 0 0 0 UTC |})
  ∧ result (_parse (P := reference) "P1Y2M10DT2H30M/2008-05-11T15:30:00Z" ∅)
    = Ok (VInterval {| interval_start := mkDateTime 2007 3 1 13 0 0 0 UTC;
                       interval_end := mkDateTime 2008 5 11 15 30 0 0 UTC |}).
Proof.
  split.
  - etransitivity.
    + apply (proj1 (interval_from_endpoint_and_duration (P := reference)
                      "2021-01-31/P1M" ∅ (Reference.midnight 2021 1 31 None)
                      (Reference.midnight 2021 1 31 None)
                      (mkDuration 0 1 0 0 0 0 0 0) ltac:(discriminate))).
      reflexivity.
    + vm_compute. reflexivity.
  - etransitivity.
    + apply (proj2 (interval_from_endpoint_and_duration (P := reference)
                      "P1Y2M10DT2H30M/2008-05-11T15:30:00Z" ∅
                      (mk_py_datetime 2008 5 11 15 30 0 0 (Some UTC))
                      (mk_py_datetime 2008 5 11 15 30 0 0 (Some UTC))
                      (mkDuration 1 2 1 3 2 30 0 0) ltac:(discriminate))).
      reflexivity.
    + vm_compute. reflexivity.
Defined.

Lemma interval_from_both_endpoints_witness :
  result (_parse (P := reference) "2021-01-01/2021-02-01"
            {["tz" := PyStr "Europe/Paris"]})
  = Ok (VInterval
          {| interval_start :=
               mkDateTime 2021 1 1 0 0 0 0 (NamedTimezone "Europe/Paris");
             interval_end :=
               mkDateTime 2021 2 1 0 0 0 0 (NamedTimezone "Europe/Paris") |}).
Proof.
  etransitivity.
  - apply (interval_from_both_endpoints (P := reference)
             "2021-01-01/2021-02-01" {["tz" := PyStr "Europe/Paris"]}
             (Reference.midnight 2021 1 1 None)
             (Reference.midnight 2021 2 1 None)).
    + discriminate.
    + reflexivity.
  - vm_compute. reflexivity.
Defined.

Lemma interval_end_is_ignored_witness :
  result (_parse
            (P := Reference.collaborators
                    (Reference.constant_grammar (PInterval overdetermined)))
            "2021-01-31/P1M/2030-01-01" ∅)
  = Ok (VInterval {| interval_start := mkDateTime 2021 1 31 0 0 0 0 UTC;
                     interval_end := mkDateTime 2021 2 28 0 0 0 0 UTC |}).
Proof.
  etransitivity.
  - apply (interval_end_is_ignored
             (P := Reference.collaborators
                     (Reference.constant_grammar (PInterval overdetermined)))
             "2021-01-31/P1M/2030-01-01" ∅
             (Reference.midnight 2021 1 31 None)
             (mkDuration 0 1 0 0 0 0 0 0)
             (Some (Reference.midnight 2030 1 1 None))).
    + discriminate.
    + reflexivity.
  - vm_compute. reflexivity.
Defined.

Lemma interval_accesses_are_safe_witness :
  result (_parse (P := reference) "P1Y2M10DT2H30M/2008-05-11T15:30:00Z" ∅)
  ≠ Raise NoneOperand.
Proof.
  apply (interval_accesses_are_safe (P := reference)
           "P1Y2M10DT2H30M/2008-05-11T15:30:00Z" ∅
           (mk_Interval None
              (Some (mk_py_datetime 2008 5 11 15 30 0 0 (Some UTC)))
              (Some (mkDuration 1 2 1 3 2 30 0 0)))).
  - discriminate.
  - reflexivity.
  - reflexivity.
Defined.


(** ** Further properties of the parser *)

(** *** The remaining branches of the dispatch *)

Section Branches.
Context `{P : Pendulum}.

Implicit Types (text : string) (options : Options).

(** X1.  For a text parsed as a time of day, [_parse] returns the [Time]
    that [pendulum.time] builds from the parsed hour, minute, second and
    microsecond (lines 79-82); neither the clock nor any option is used:
    the conversion is the same run for every set of options. *)
Theorem time_from_parsed_fields text options (p : py_time) :
  text ≠ "now" →
  base_parse text options = Returned (PTime p) →
  _parse text options =
    ([call_base_parse text options;
      call_time (t_hour p) (t_minute p) (t_second p) (t_microsecond p)],
     VTime <$> lift (pendulum_time (t_hour p) (t_minute p) (t_second p)
                       (t_microsecond p)))
  ∧ ∀ options', convert (PTime p) options' = convert (PTime p) options.
Proof.
  intros Hne Hp. rewrite (_parse_parsed _ _ _ Hne Hp). unfold convert.
  split; [run|reflexivity].
Qed.

(** X2.  A duration of the compiled extension is copied field by field
    into [pendulum.duration], [days] to [days] and [seconds] to [seconds]
    (lines 135-145), when the extension was imported; when it was not
    ([RustDuration] is [None]) the object is not recognised and
    [NotImplementedError] is raised without any further call. *)
Theorem rust_duration_copied_or_unsupported text options (p : RustDuration) :
  text ≠ "now" →
  base_parse text options = Returned (PRustDuration p) →
  _parse text options =
    if RustDuration_is_not_None then
      ([call_base_parse text options;
        call_duration (rust_years p) (rust_months p) (rust_weeks p)
          (rust_days p) (rust_hours p) (rust_minutes p) (rust_seconds p)
          (rust_microseconds p)],
       VDuration <$> lift (pendulum_duration (rust_years p) (rust_months p)
                             (rust_weeks p) (rust_days p) (rust_hours p)
                             (rust_minutes p) (rust_seconds p)
                             (rust_microseconds p)))
    else ([call_base_parse text options], Raise NotImplementedError).
Proof.
  intros Hne Hp. rewrite (_parse_parsed _ _ _ Hne Hp). unfold convert.
  destruct RustDuration_is_not_None; run.
Qed.


(** X4.  A value returned is of the kind of the parsed object: a
    [DateTime] for the text "now" and for a [datetime], a [Date] for a
    [date], a [Time] for a [time], an [Interval] for an [_Interval], a
    [Duration] for either duration type. *)
Theorem value_kind_follows_parsed_kind text options (v : Value) :
  result (_parse text options) = Ok v →
  (text = "now" ∧ kind_of_value v = KDateTime)
  ∨ (text ≠ "now"
     ∧ ∃ parsed, base_parse text options = Returned parsed
                 ∧ kind_of_parsed parsed = Some (kind_of_value v)).
Proof.
  destruct (decide (text = "now")) as [->|Hne].
  - rewrite _parse_now. intros [= <-]. by left.
  - rewrite _parse_other, result_bind, result_call by done.
    destruct (base_parse text options) as [parsed|] eqn:Hp; [cbn|done].
    intros Hv. right. split; [done|]. exists parsed. split; [done|].
    revert Hv.
    destruct parsed as [| | |[[?|] [?|] [?|]]| | |];
      unfold convert, convert_interval;
      try destruct RustDuration_is_not_None; run;
      intros Hv; simplify_eq; reflexivity.
Qed.

End Branches.

(** *** Options *)

Section OptionsUse.
Context `{P : Pendulum}.

Implicit Types (text : string) (options : Options).

(** X5.  For every text but "now", [parse] calls the grammar parser once,
    before anything else, with the text as given and the caller's options
    in which only the key [now] may differ: it is always present, with the
    caller's value, or [None] when the caller gave none (lines 45-47 and
    62). *)
Theorem grammar_called_once_with_now_set text options :
  text ≠ "now" →
  ∃ (forwarded : Options) (calls : list Event),
    trace (parse text options) = call_base_parse text forwarded :: calls
    ∧ Forall (λ ev, entry_call ev = false) calls
    ∧ forwarded !! "now" = Some (default PyNone (options !! "now"))
    ∧ ∀ key, key ≠ "now" → forwarded !! key = options !! key.
Proof.
  intros Hne.
  exists (<["now" := dict_get options "now" PyNone]> options).
  exists (match base_parse text
                  (<["now" := dict_get options "now" PyNone]> options) with
          | Returned parsed =>
              trace (convert parsed
                       (<["now" := dict_get options "now" PyNone]> options))
          | Failed _ => []
          end).
  split; [|split; [|split]].
  - unfold parse. cbn zeta. rewrite _parse_other, trace_bind by done.
    rewrite result_call. cbn [trace call fst app].
    destruct (base_parse _ _); reflexivity.
  - destruct (base_parse _ _); [apply convert_no_entry_call|constructor].
  - apply lookup_insert_eq.
  - intros key Hkey. by apply lookup_insert_ne.
Qed.

(** X6.  Setting the key [now] as [parse] does and calling [parse] again
    changes nothing: [parse] on options it has normalised is the same run
    as [parse] on the caller's options. *)
Theorem parse_normalisation_idempotent text options :
  parse text (<["now" := dict_get options "now" PyNone]> options)
  = parse text options.
Proof.
  unfold parse. cbn zeta. f_equal.
  unfold dict_get at 1. rewrite lookup_insert_eq. cbn [default].
  apply insert_insert_eq.
Qed.

(** X7.  The only option [_parse] reads is [tz]; every other option can
    reach the result through the grammar parser alone.  Two sets of options
    with the same [tz] entry on which the grammar parser answers alike give
    the same value or error. *)
Theorem _parse_reads_only_tz text options options' :
  options !! "tz" = options' !! "tz" →
  base_parse text options = base_parse text options' →
  result (_parse text options) = result (_parse text options').
Proof.
  intros Htz Hp. destruct (decide (text = "now")) as [->|Hne]; [reflexivity|].
  rewrite !_parse_other, !result_bind, !result_call, Hp by done.
  destruct (base_parse text options') as [parsed|]; [cbn|reflexivity].
  f_equal. by apply convert_reads_only_tz.
Qed.

(** X8.  The [tz] option matters for a [datetime] without [tzinfo] and for
    an interval only: every other object is converted by the same run
    whatever the options are. *)
Theorem tz_option_only_for_naive_datetime_and_interval
    (parsed : Parsed) options options' :
  tz_free parsed = true →
  convert parsed options = convert parsed options'.
Proof.
  destruct parsed as [p| | | | | |]; cbn [tz_free]; try done.
  intros Haware. apply bool_decide_eq_true in Haware as [z Hz].
  unfold convert, tzinfo_or_option. rewrite Hz. reflexivity.
Qed.

(** X9.  Every [pendulum.instance] call of a run of [parse] is given
    [options.get("tz", UTC)] as its timezone, also when the endpoint has a
    [tzinfo] of its own; a [tz] given as [None] is passed on as [None] and
    not replaced by [UTC] (lines 89, 105-107, 123-130). *)
Theorem instance_gets_tz_option text options :
  Forall (instance_gets (dict_get options "tz" (PyTimezone UTC)))
    (trace (parse text options))
  ∧ (options !! "tz" = Some PyNone →
     Forall (instance_gets PyNone) (trace (parse text options))).
Proof.
  assert (Hall : Forall (instance_gets (dict_get options "tz" (PyTimezone UTC)))
                   (trace (parse text options))).
  { unfold parse. cbn zeta.
    destruct (decide (text = "now")) as [->|Hne]; [repeat constructor|].
    rewrite _parse_other, trace_bind, result_call by done.
    apply Forall_app. split; [repeat constructor|].
    destruct (base_parse _ _) as [parsed|]; [cbn|constructor].
    assert (Htz : dict_get (<["now" := dict_get options "now" PyNone]> options)
                    "tz" (PyTimezone UTC)
                  = dict_get options "tz" (PyTimezone UTC)).
    { unfold dict_get at 1 3. by rewrite lookup_insert_ne. }
    destruct parsed as [| | |[[?|] [?|] [?|]]| | |];
      unfold convert, convert_interval, instance_with_tz; rewrite ?Htz;
      try destruct RustDuration_is_not_None; run; repeat constructor. }
  split; [exact Hall|].
  intros HNone. unfold dict_get in Hall. rewrite HNone in Hall. exact Hall.
Qed.

End OptionsUse.

(** *** Failures *)

Section Failures.
Context `{P : Pendulum}.

Implicit Types (text : string) (options : Options).

Lemma fails_last_call {A} (ev : Event) (r : reply A) :
  failure_of ev = failure r → fails_last (call ev r).
Proof.
  intros Hev. unfold fails_last, call, trace, result. cbn.
  destruct r as [a|e]; cbn in *.
  - by repeat constructor.
  - exists [], ev. by repeat split.
Qed.

Lemma fails_last_ret {A} (a : A) : fails_last (mret a : M A).
Proof. constructor. Qed.

Lemma fails_last_raise {A} (e : exn) :
  (∀ x, e ≠ Propagated x) → fails_last (raise e : M A).
Proof.
  intros He. unfold fails_last, raise, trace, result. cbn.
  destruct e; try constructor. by destruct (He e).
Qed.

Lemma fails_last_bind {A B} (m : M A) (k : A → M B) :
  fails_last m → (∀ a, fails_last (k a)) → fails_last (m ≫= k).
Proof.
  intros Hm Hk. destruct m as [t [a|e]]; [|exact Hm].
  specialize (Hk a). unfold fails_last in *.
  rewrite result_bind, trace_bind. unfold trace, result in *. cbn in *.
  destruct (k a) as [t' [b|[| |x]]]; cbn in *;
    try (apply Forall_app; by split).
  destruct Hk as (calls & ev & -> & Hcalls & Hev).
  exists (t ++ calls), ev. rewrite app_assoc. split; [done|].
  split; [|done]. apply Forall_app. by split.
Qed.

Lemma fails_last_convert parsed options : fails_last (convert parsed options).
Proof.
  destruct parsed as [| | |[[?|] [?|] [?|]]| | |];
    unfold convert, convert_interval, instance_with_tz, add_duration,
      subtract_duration, cast;
    try destruct RustDuration_is_not_None;
    repeat first
      [ apply fails_last_bind; [|intros ?]
      | apply fails_last_call; reflexivity
      | apply fails_last_ret
      | apply fails_last_raise; intros ?; discriminate ].
Qed.

(** X10.  No failure is swallowed and nothing follows one: in every run of
    [parse], each call made before the last one succeeded; if the run ends
    in an error of a collaborator, that error is the failure of the last
    call made; if it ends otherwise, every call succeeded.  ([_parse] has no
    [try]: the first call that fails ends the run.) *)
Theorem no_call_after_failure text options :
  fails_last (parse text options).
Proof.
  unfold parse. cbn zeta. unfold _parse. case_decide.
  - apply fails_last_bind; [by apply fails_last_call|intros ?].
    apply fails_last_ret.
  - apply fails_last_bind; [by apply fails_last_call|intros ?].
    apply fails_last_convert.
Qed.

(** X11.  An interval with fewer than two of start, end and duration is
    not validated: the run comes to a cast of [None] at once, or, when the
    start alone is present, after [pendulum.instance] was called on the
    start and succeeded; no value is returned and [add] and [subtract] are
    not called. *)
Theorem malformed_interval_meets_None text options (i : _Interval) :
  text ≠ "now" →
  base_parse text options = Returned (PInterval i) →
  at_least_two_present i = false →
  result (_parse text options) =
    match start i, end_ i, duration i with
    | Some s, None, None =>
        lift (pendulum_instance s (dict_get options "tz" (PyTimezone UTC)))
        ≫= λ _, Raise NoneOperand
    | _, _, _ => Raise NoneOperand
    end
  ∧ (∀ v, result (_parse text options) ≠ Ok v)
  ∧ Forall (λ ev, arithmetic_call ev = false) (trace (_parse text options)).
Proof.
  intros Hne Hp Hfew. rewrite (_parse_parsed _ _ _ Hne Hp).
  destruct i as [[?|] [?|] [?|]]; try discriminate Hfew;
    unfold convert, convert_interval; (split; [|split]); run;
    repeat constructor.
Qed.

End Failures.

(** *** Runs as a whole *)

Section WholeRuns.
Context `{P : Pendulum}.

Implicit Types (text : string) (options : Options).


(** X13.  [_parse] returns a value whenever nothing it relies on fails: if
    the grammar parser returns a supported object, an interval among them
    having at least two of its three attributes, and every call of the run
    succeeds, then the run ends in a value. *)
Theorem _parse_returns_when_calls_succeed text options (parsed : Parsed) :
  text ≠ "now" →
  base_parse text options = Returned parsed →
  unsupported parsed = false →
  (∀ i, parsed = PInterval i → at_least_two_present i = true) →
  Forall (λ ev, failure_of ev = None) (trace (_parse text options)) →
  ∃ v, result (_parse text options) = Ok v.
Proof.
  intros Hne Hp Hsup Hwf. rewrite (_parse_parsed _ _ _ Hne Hp).
  unfold trace at 1, result at 1. cbn [fst snd].
  intros Hall. apply Forall_cons in Hall as [_ Hall]. revert Hall.
  destruct parsed as [| | |[[?|] [?|] [?|]]| | |]; cbn [unsupported] in Hsup;
    try discriminate Hsup;
    try (specialize (Hwf _ eq_refl); discriminate Hwf);
    unfold convert, convert_interval;
    try (destruct RustDuration_is_not_None; [|discriminate Hsup]);
    run; intros Hall; eauto;
    decompose_Forall_hyps; unfold failure_of, failure in *;
    repeat case_match; simplify_eq.
Qed.

End WholeRuns.

(** *** The further properties at concrete inputs *)

Lemma time_from_parsed_fields_witness :
  result (_parse (P := reference) "10:30:15" ∅)
  = Ok (VTime (mkTime 10 30 15 0)).
Proof.
  rewrite (proj1 (time_from_parsed_fields (P := reference) "10:30:15" ∅
                    (mk_py_time 10 30 15 0) ltac:(discriminate) eq_refl)).
  reflexivity.
Defined.

Lemma rust_duration_copied_or_unsupported_witness :
  result (_parse
            (P := Reference.collaborators
                    (Reference.constant_grammar (PRustDuration rust_p1y2m10d)))
            "P1Y2M10DT5S" ∅)
  = Ok (VDuration (mkDuration 1 2 0 10 0 0 5 0)).
Proof.
  rewrite (rust_duration_copied_or_unsupported
             (P := Reference.collaborators
                     (Reference.constant_grammar (PRustDuration rust_p1y2m10d)))
             "P1Y2M10DT5S" ∅ rust_p1y2m10d ltac:(discriminate) eq_refl).
  reflexivity.
Defined.


Lemma value_kind_follows_parsed_kind_witness :
  ("2021-05-03" = "now" ∧ KDate = KDateTime)
  ∨ ("2021-05-03" ≠ "now"
     ∧ ∃ parsed, Reference.grammar "2021-05-03" ∅ = Returned parsed
                 ∧ kind_of_parsed parsed = Some KDate).
Proof.
  apply (value_kind_follows_parsed_kind (P := reference) "2021-05-03" ∅
           (VDate (mkDate 2021 5 3))).
  reflexivity.
Defined.

Lemma grammar_called_once_with_now_set_witness :
  ∃ (forwarded : Options) (calls : list Event),
    trace (parse (P := reference) "P1Y2M" lenient_options)
      = call_base_parse "P1Y2M" forwarded :: calls
    ∧ Forall (λ ev, entry_call ev = false) calls
    ∧ forwarded !! "now" = Some (default PyNone (lenient_options !! "now"))
    ∧ ∀ key, key ≠ "now" → forwarded !! key = lenient_options !! key.
Proof.
  apply (grammar_called_once_with_now_set (P := reference) "P1Y2M"
           lenient_options).
  discriminate.
Defined.

Lemma _parse_reads_only_tz_witness :
  result (_parse (P := reference) "2021-01-31/P1M" ∅)
  = result (_parse (P := reference) "2021-01-31/P1M" lenient_options).
Proof.
  apply (_parse_reads_only_tz (P := reference) "2021-01-31/P1M" ∅
           lenient_options).
  - reflexivity.
  - reflexivity.
Defined.

Lemma tz_option_only_for_naive_datetime_and_interval_witness :
  convert (P := reference) (PDate (mk_py_date 2021 5 3)) ∅
  = convert (P := reference) (PDate (mk_py_date 2021 5 3)) paris_options.
Proof.
  apply (tz_option_only_for_naive_datetime_and_interval (P := reference)
           (PDate (mk_py_date 2021 5 3)) ∅ paris_options).
  reflexivity.
Defined.

Lemma malformed_interval_meets_None_witness :
  result (_parse
            (P := Reference.collaborators
                    (Reference.constant_grammar (PInterval lone_start)))
            "2021-01-01/" ∅)
  = Raise NoneOperand.
Proof.
  etransitivity.
  - apply (malformed_interval_meets_None
             (P := Reference.collaborators
                     (Reference.constant_grammar (PInterval lone_start)))
             "2021-01-01/" ∅ lone_start).
    + discriminate.
    + reflexivity.
    + reflexivity.
  - vm_compute. reflexivity.
Defined.

Lemma _parse_returns_when_calls_succeed_witness :
  ∃ v, result (_parse (P := reference) "2021-01-31/P1M" ∅) = Ok v.
Proof.
  apply (_parse_returns_when_calls_succeed (P := reference)
           "2021-01-31/P1M" ∅
           (PInterval (mk_Interval (Some (Reference.midnight 2021 1 31 None))
                         None (Some (mkDuration 0 1 0 0 0 0 0 0))))).
  - discriminate.
  - reflexivity.
  - reflexivity.
  - intros i [= <-]. reflexivity.
  - replace (trace (_parse (P := reference) "2021-01-31/P1M" ∅))
      with [call_base_parse "2021-01-31/P1M" ∅;
            call_instance (Reference.midnight 2021 1 31 None) (PyTimezone UTC);
            call_add (mkDateTime 2021 1 31 0 0 0 0 UTC) 0 1 0 0 0 0 0 0]
      by (vm_compute; reflexivity).
    repeat (apply Forall_cons; split; [vm_compute; reflexivity|]).
    constructor.
Defined.
